(** * The OMC protocol adapter (src/team/protocol-adapter.ts)

    A shallow embedding of the conversion functions between OMC's internal
    team records and the cli-agent-mail protocol records, with the
    properties of these conversions stated over it.

    JavaScript values that the adapter only stores in, or reads back from,
    a free-form metadata object are kept dynamic ([JsValue]): the [as]
    casts of the TypeScript source are erased at run time, so a field read
    from metadata holds whatever value the object had under that key. *)

From Stdlib Require Import Floats.PrimFloat.
From stdpp Require Import base option list strings gmap fin_maps.

Set Warnings "-register-all".
Local Open Scope string_scope.

(** ** JavaScript values and objects *)

(** A JavaScript number is an IEEE 754 binary64 value. *)
Abbreviation number := PrimFloat.float.

Inductive JsValue : Type :=
| JsUndefined
| JsNull
| JsBool (b : bool)
| JsNumber (n : number)
| JsString (s : string)
| JsArray (elems : list JsValue)
| JsObject (props : gmap string JsValue).

(** A plain object used as a string-keyed record ([Record<string, unknown>]). *)
Abbreviation JsRecord := (gmap string JsValue).

(** [o[k]]: reading a key that the object does not have gives [undefined]. *)
Definition js_get (o : JsRecord) (k : string) : JsValue :=
  default JsUndefined (o !! k).

(** [v ?? d]: the right operand is taken exactly when the left one is
    [undefined] or [null]. *)
Definition nullish (v d : JsValue) : JsValue :=
  match v with
  | JsUndefined | JsNull => d
  | _ => v
  end.

Infix "??" := nullish (at level 45, left associativity).

(** [v === 'lit'] for a string literal. *)
Definition strict_eq_string (v : JsValue) (lit : string) : bool :=
  match v with
  | JsString s => String.eqb s lit
  | _ => false
  end.

(** An optional string-typed field as the value a property read gives. *)
Definition js_of_option_string (o : option string) : JsValue :=
  match o with
  | Some s => JsString s
  | None => JsUndefined
  end.

(** Property definitions applied in source order: a later definition of a
    key replaces an earlier one. This is how an object literal (after its
    spread part) and [Object.fromEntries] build their result. *)
Definition js_define (o : JsRecord) (defs : list (string * JsValue)) : JsRecord :=
  foldl (λ acc kv, <[kv.1 := kv.2]> acc) o defs.

(** [Object.entries(o)]: the own enumerable string-keyed properties. *)
Definition Object_entries (o : JsRecord) : list (string * JsValue) :=
  map_to_list o.

(** [Object.fromEntries(l)]. *)
Definition Object_fromEntries (l : list (string * JsValue)) : JsRecord :=
  js_define ∅ l.

(** [arr.includes(k)] on an array of strings. *)
Definition includes (arr : list string) (k : string) : bool :=
  existsb (String.eqb k) arr.

(** ** The record types *)

(** Modelled from the spec: the declaration of [TaskFile] (./types.js) is
    not among the sources. Section 3 gives a task record an identifier,
    subject, description, lifecycle status, optional owner, the two
    dependency lists, an optional free-form metadata mapping, optional
    claim information and an optional active-form label. The fields that
    [fromProtocolTask] fills from metadata through a cast hold a dynamic
    value; [TaskFile.well_typed] says when they have their declared type. *)
Module TaskFile.
Record t : Type := mk {
  id : string;
  subject : string;
  description : string;
  activeForm : JsValue;          (* declared: string, optional *)
  status : string;
  owner : option string;
  blocks : list JsValue;         (* declared: string[] *)
  blockedBy : list string;
  metadata : option JsRecord;
  claimedBy : JsValue;           (* declared: string, optional *)
  claimedAt : JsValue;           (* declared: number, optional *)
  claimPid : JsValue;            (* declared: number, optional *)
}.

Definition is_optional_string (v : JsValue) : bool :=
  match v with
  | JsUndefined | JsString _ => true
  | _ => false
  end.

Definition is_optional_number (v : JsValue) : bool :=
  match v with
  | JsUndefined | JsNumber _ => true
  | _ => false
  end.

Definition is_string (v : JsValue) : bool :=
  match v with
  | JsString _ => true
  | _ => false
  end.

(** The dynamic fields carry values of their declared types. *)
Definition well_typed (x : t) : bool :=
  is_optional_string (activeForm x)
  && forallb is_string (blocks x)
  && is_optional_string (claimedBy x)
  && is_optional_number (claimedAt x)
  && is_optional_number (claimPid x).

(** The owner is set and is not the empty string (a truthy [owner]). *)
Definition has_owner (x : t) : bool :=
  match owner x with
  | Some s => negb (String.eqb s "")
  | None => false
  end.
End TaskFile.

(** Modelled from the spec: the declaration of [ProtocolTask] (package
    cli-agent-mail) is not among the sources. Section 3 gives an external
    task record an identifier, subject, description, status, optional
    owner, optional dependency list, version counter, metadata mapping and
    creation timestamp; [schema_version] is taken from the object literal
    in [toProtocolTask]. The metadata is optional here because
    [fromProtocolTask] guards its read with [?? {}]. *)
Module ProtocolTask.
Record t : Type := mk {
  schema_version : number;
  id : string;
  subject : string;
  description : string;
  status : string;
  owner : option string;
  depends_on : option (list string);
  version : number;
  metadata : option JsRecord;
  created_at : string;
}.
End ProtocolTask.

(** Modelled from the spec: the declaration of [OutboxMessage] (./types.js)
    is not among the sources. Section 3: a record tagged by message kind,
    carrying optional task id, summary, free text, error text, request id,
    and a numeric timestamp. *)
Module OutboxMessage.
Record t : Type := mk {
  type : string;
  taskId : option string;
  summary : option string;
  message : option string;
  error : option string;
  requestId : option string;
  timestamp : number;
}.
End OutboxMessage.

(** Modelled from the spec: the declaration of [ProtocolMessage] (package
    cli-agent-mail) is not among the sources. Section 3: identifier,
    sender, recipient, coarse type, opaque body, creation timestamp. *)
Module ProtocolMessage.
Record t : Type := mk {
  message_id : string;
  from : string;
  to : string;
  type : string;
  body : string;
  created_at : number;
}.
End ProtocolMessage.

(** Modelled from the spec: the declaration of [InboxMessage] (./types.js)
    is not among the sources. Section 3: coarse type, content, timestamp. *)
Module InboxMessage.
Record t : Type := mk {
  type : string;
  content : string;
  timestamp : number;
}.
End InboxMessage.

(** Modelled from the spec: the declaration of [HeartbeatData] (./types.js)
    is not among the sources. Section 3: worker name, team name, provider
    identifier, process id, last-poll timestamp, current task id,
    consecutive-error count, status. The fields that
    [fromProtocolHeartbeat] fills from metadata through a cast hold a
    dynamic value. *)
Module HeartbeatData.
Record t : Type := mk {
  workerName : JsValue;          (* declared: string *)
  teamName : JsValue;            (* declared: string *)
  provider : JsValue;            (* declared: a provider identifier *)
  pid : number;
  lastPollAt : string;
  currentTaskId : option string;
  consecutiveErrors : JsValue;   (* declared: number *)
  status : JsValue;              (* declared: a status string *)
}.
End HeartbeatData.

(** Modelled from the spec: the declaration of [ProtocolHeartbeat] (package
    cli-agent-mail) is not among the sources. Section 3: process id,
    last-active timestamp, status, current task id, metadata mapping. The
    status is whatever [toProtocolHeartbeat] copied or substituted. *)
Module ProtocolHeartbeat.
Record t : Type := mk {
  pid : number;
  last_active_at : string;
  status : JsValue;              (* declared: a status string *)
  current_task_id : option string;
  metadata : option JsRecord;
}.
End ProtocolHeartbeat.

(** Modelled from the spec: the declaration of [McpWorkerMember]
    (./types.js) is not among the sources. Of the fields section 3 lists,
    only those the adapter reads are kept. *)
Module McpWorkerMember.
Record t : Type := mk {
  name : string;
  agentType : string;
  tmuxPaneId : option string;
}.
End McpWorkerMember.

(** Modelled from the spec: the declaration of [ProtocolWorkerInfo]
    (package cli-agent-mail) is not among the sources. Section 3: name,
    numeric index, role, list of assigned task ids, pane identifier. *)
Module ProtocolWorkerInfo.
Record t : Type := mk {
  name : string;
  index : number;
  role : string;
  assigned_tasks : list string;
  pane_id : option string;
}.
End ProtocolWorkerInfo.

(** ** TaskFile <-> ProtocolTask *)

(** The metadata keys under which [toProtocolTask] stores the internal
    fields without a protocol counterpart, as listed in the filter of
    [fromProtocolTask]. *)
Definition task_reserved_keys : list string :=
  ["blocks"; "activeForm"; "claimedBy"; "claimedAt"; "claimPid"].

(** [toProtocolTask]. The reading of the clock, [new Date().toISOString()],
    is the explicit argument [now]. *)
Definition toProtocolTask (now : string) (task : TaskFile.t) : ProtocolTask.t :=
  {| ProtocolTask.schema_version := 1%float;
     ProtocolTask.id := TaskFile.id task;
     ProtocolTask.subject := TaskFile.subject task;
     ProtocolTask.description := TaskFile.description task;
     ProtocolTask.status := TaskFile.status task;
     ProtocolTask.owner :=
       match TaskFile.owner task with
       | Some s => if String.eqb s "" then None else Some s
       | None => None
       end;
     ProtocolTask.depends_on :=
       if (0 <? length (TaskFile.blockedBy task))%nat
       then Some (TaskFile.blockedBy task)
       else None;
     ProtocolTask.version := 1%float;
     ProtocolTask.metadata :=
       Some (js_define (default ∅ (TaskFile.metadata task))
               [ ("blocks", JsArray (TaskFile.blocks task));
                 ("activeForm", TaskFile.activeForm task);
                 ("claimedBy", TaskFile.claimedBy task);
                 ("claimedAt", TaskFile.claimedAt task);
                 ("claimPid", TaskFile.claimPid task) ]);
     ProtocolTask.created_at := now |}.

(** [fromProtocolTask]. *)
Definition fromProtocolTask (task : ProtocolTask.t) : TaskFile.t :=
  let meta := default ∅ (ProtocolTask.metadata task) in
  {| TaskFile.id := ProtocolTask.id task;
     TaskFile.subject := ProtocolTask.subject task;
     TaskFile.description := ProtocolTask.description task;
     TaskFile.activeForm := js_get meta "activeForm" ?? JsUndefined;
     TaskFile.status := ProtocolTask.status task;
     TaskFile.owner := Some (default "" (ProtocolTask.owner task));
     TaskFile.blocks :=
       match js_get meta "blocks" with
       | JsArray elems => elems
       | _ => []
       end;
     TaskFile.blockedBy := default [] (ProtocolTask.depends_on task);
     TaskFile.metadata :=
       Some (Object_fromEntries
               (filter (λ kv, negb (includes task_reserved_keys kv.1))
                       (Object_entries meta)));
     TaskFile.claimedBy := js_get meta "claimedBy";
     TaskFile.claimedAt := js_get meta "claimedAt";
     TaskFile.claimPid := js_get meta "claimPid" |}.

(** ** OutboxMessage -> ProtocolMessage, ProtocolMessage -> InboxMessage *)

Section Messages.
(** Library functions of the JavaScript runtime that the adapter calls and
    whose results it only stores: [JSON.stringify] and the conversion of
    a number to a string in a given radix ([toString(radix)], and with
    radix 10 the conversion a template literal applies). *)
Variable JSON_stringify : JsValue → string.
Variable Number_toString : N → number → string.

(** [s.slice(2, 8)] on a string. *)
Definition slice_2_8 (s : string) : string := String.substring 2 6 s.

(** [toProtocolMessage]. The draw [Math.random()] is the explicit
    argument [random]. The [switch] compares the kind with its case
    labels by strict equality, group by group in source order. *)
Definition toProtocolMessage (random : number)
    (msg : OutboxMessage.t) (workerName : string) : ProtocolMessage.t :=
  let k := OutboxMessage.type msg in
  let protocolType :=
    if includes ["ready"; "idle"; "heartbeat"; "shutdown_ack"; "drain_ack"] k
    then "status"
    else if includes ["task_complete"; "task_failed"] k
    then "result"
    else if includes ["error"] k
    then "status"
    else "chat" in
  let body :=
    JSON_stringify
      (JsObject
         (js_define ∅
            [ ("type", JsString (OutboxMessage.type msg));
              ("taskId", js_of_option_string (OutboxMessage.taskId msg));
              ("summary", js_of_option_string (OutboxMessage.summary msg));
              ("message", js_of_option_string (OutboxMessage.message msg));
              ("error", js_of_option_string (OutboxMessage.error msg));
              ("requestId", js_of_option_string (OutboxMessage.requestId msg)) ])) in
  {| ProtocolMessage.message_id :=
       workerName ++ "-" ++ Number_toString 10 (OutboxMessage.timestamp msg)
         ++ "-" ++ slice_2_8 (Number_toString 36 random);
     ProtocolMessage.from := workerName;
     ProtocolMessage.to := "lead";
     ProtocolMessage.type := protocolType;
     ProtocolMessage.body := body;
     ProtocolMessage.created_at := OutboxMessage.timestamp msg |}.
End Messages.

(** [fromProtocolMessage]. *)
Definition fromProtocolMessage (msg : ProtocolMessage.t) : InboxMessage.t :=
  {| InboxMessage.type :=
       if String.eqb (ProtocolMessage.type msg) "instruction"
       then "message" else "context";
     InboxMessage.content := ProtocolMessage.body msg;
     InboxMessage.timestamp := ProtocolMessage.created_at msg |}.

(** ** HeartbeatData <-> ProtocolHeartbeat *)

(** The metadata keys written by [toProtocolHeartbeat] and read back by
    [fromProtocolHeartbeat]. *)
Definition heartbeat_reserved_keys : list string :=
  ["workerName"; "teamName"; "provider"; "consecutiveErrors"; "omcStatus"].

(** [toProtocolHeartbeat]. *)
Definition toProtocolHeartbeat (hb : HeartbeatData.t) : ProtocolHeartbeat.t :=
  let protocolStatus :=
    if strict_eq_string (HeartbeatData.status hb) "quarantined"
    then JsString "shutdown"
    else HeartbeatData.status hb in
  {| ProtocolHeartbeat.pid := HeartbeatData.pid hb;
     ProtocolHeartbeat.last_active_at := HeartbeatData.lastPollAt hb;
     ProtocolHeartbeat.status := protocolStatus;
     ProtocolHeartbeat.current_task_id := HeartbeatData.currentTaskId hb;
     ProtocolHeartbeat.metadata :=
       Some (js_define ∅
               [ ("workerName", HeartbeatData.workerName hb);
                 ("teamName", HeartbeatData.teamName hb);
                 ("provider", HeartbeatData.provider hb);
                 ("consecutiveErrors", HeartbeatData.consecutiveErrors hb);
                 ("omcStatus", HeartbeatData.status hb) ]) |}.

(** [fromProtocolHeartbeat]. *)
Definition fromProtocolHeartbeat (hb : ProtocolHeartbeat.t)
    (workerName teamName : string) : HeartbeatData.t :=
  let meta := default ∅ (ProtocolHeartbeat.metadata hb) in
  let omcStatus := js_get meta "omcStatus" ?? ProtocolHeartbeat.status hb in
  {| HeartbeatData.workerName := js_get meta "workerName" ?? JsString workerName;
     HeartbeatData.teamName := js_get meta "teamName" ?? JsString teamName;
     HeartbeatData.provider := js_get meta "provider" ?? JsString "codex";
     HeartbeatData.pid := ProtocolHeartbeat.pid hb;
     HeartbeatData.lastPollAt := ProtocolHeartbeat.last_active_at hb;
     HeartbeatData.currentTaskId := ProtocolHeartbeat.current_task_id hb;
     HeartbeatData.consecutiveErrors :=
       js_get meta "consecutiveErrors" ?? JsNumber 0%float;
     HeartbeatData.status := omcStatus |}.

(** ** McpWorkerMember -> ProtocolWorkerInfo *)

(** [toProtocolWorkerInfo]. *)
Definition toProtocolWorkerInfo (member : McpWorkerMember.t) : ProtocolWorkerInfo.t :=
  {| ProtocolWorkerInfo.name := McpWorkerMember.name member;
     ProtocolWorkerInfo.index := 0%float;
     ProtocolWorkerInfo.role := McpWorkerMember.agentType member;
     ProtocolWorkerInfo.assigned_tasks := [];
     ProtocolWorkerInfo.pane_id := McpWorkerMember.tmuxPaneId member |}.

(** ** Path helpers *)

Section Paths.
(** [join] of Node's [path] module, a library function of the runtime. *)
Variable join : list string → string.

(** [resolveStateRoot]. *)
Definition resolveStateRoot (cwd : string) : string :=
  join [cwd; ".omc"; "state"].
End Paths.

(** ** Message kinds by external type *)

(** The kinds that the [switch] of [toProtocolMessage] sends to [status]. *)
Definition status_kinds : list string :=
  ["ready"; "idle"; "heartbeat"; "shutdown_ack"; "drain_ack"; "error"].

(** The kinds that it sends to [result]. *)
Definition result_kinds : list string :=
  ["task_complete"; "task_failed"].

(** ** Sample records *)

Definition sample_task : TaskFile.t :=
  {| TaskFile.id := "7";
     TaskFile.subject := "Fix the parser";
     TaskFile.description := "Handle empty input";
     TaskFile.activeForm := JsString "Fixing the parser";
     TaskFile.status := "in_progress";
     TaskFile.owner := Some "worker-1";
     TaskFile.blocks := [JsString "9"];
     TaskFile.blockedBy := [];
     TaskFile.metadata := Some {[ "priority" := JsString "high" ]};
     TaskFile.claimedBy := JsString "worker-1";
     TaskFile.claimedAt := JsNumber 1700000000000%float;
     TaskFile.claimPid := JsNumber 4242%float |}.

Definition sample_task_blocked : TaskFile.t :=
  {| TaskFile.id := "8";
     TaskFile.subject := "Ship";
     TaskFile.description := "";
     TaskFile.activeForm := JsUndefined;
     TaskFile.status := "pending";
     TaskFile.owner := Some "";
     TaskFile.blocks := [];
     TaskFile.blockedBy := ["7"; "3"];
     TaskFile.metadata := None;
     TaskFile.claimedBy := JsUndefined;
     TaskFile.claimedAt := JsUndefined;
     TaskFile.claimPid := JsUndefined |}.

Definition sample_protocol_task : ProtocolTask.t :=
  {| ProtocolTask.schema_version := 1%float;
     ProtocolTask.id := "7";
     ProtocolTask.subject := "Fix the parser";
     ProtocolTask.description := "Handle empty input";
     ProtocolTask.status := "pending";
     ProtocolTask.owner := None;
     ProtocolTask.depends_on := None;
     ProtocolTask.version := 1%float;
     ProtocolTask.metadata :=
       Some (<[ "priority" := JsString "high" ]>
               (<[ "blocks" := JsArray [JsString "9"] ]>
                  (<[ "claimPid" := JsNumber 4242%float ]> ∅)));
     ProtocolTask.created_at := "2025-01-01T00:00:00.000Z" |}.

Definition sample_outbox (kind : string) : OutboxMessage.t :=
  {| OutboxMessage.type := kind;
     OutboxMessage.taskId := Some "7";
     OutboxMessage.summary := None;
     OutboxMessage.message := None;
     OutboxMessage.error := None;
     OutboxMessage.requestId := None;
     OutboxMessage.timestamp := 1700000000000%float |}.

Definition sample_protocol_message (type : string) : ProtocolMessage.t :=
  {| ProtocolMessage.message_id := "lead-1-abc123";
     ProtocolMessage.from := "lead";
     ProtocolMessage.to := "worker-1";
     ProtocolMessage.type := type;
     ProtocolMessage.body := "run the tests";
     ProtocolMessage.created_at := 1700000000000%float |}.

Definition sample_heartbeat (status : string) : HeartbeatData.t :=
  {| HeartbeatData.workerName := JsString "worker-1";
     HeartbeatData.teamName := JsString "alpha";
     HeartbeatData.provider := JsString "gemini";
     HeartbeatData.pid := 4242%float;
     HeartbeatData.lastPollAt := "2025-01-01T00:00:00.000Z";
     HeartbeatData.currentTaskId := Some "7";
     HeartbeatData.consecutiveErrors := JsNumber 3%float;
     HeartbeatData.status := JsString status |}.

Definition sample_protocol_heartbeat (metadata : option JsRecord) : ProtocolHeartbeat.t :=
  {| ProtocolHeartbeat.pid := 4242%float;
     ProtocolHeartbeat.last_active_at := "2025-01-01T00:00:00.000Z";
     ProtocolHeartbeat.status := JsString "polling";
     ProtocolHeartbeat.current_task_id := None;
     ProtocolHeartbeat.metadata := metadata |}.

(** ** Auxiliary notions for the round trips *)

(** A value that [??] replaces by its right operand. *)
Definition is_nullish (v : JsValue) : bool :=
  match v with
  | JsUndefined | JsNull => true
  | _ => false
  end.

(** The test of [fromProtocolTask]'s filter, as a predicate on entries. *)
Abbreviation unreserved :=
  (λ kv : string * JsValue, kv.1 ∉ task_reserved_keys).

(** The tasks that a round trip through the protocol leaves unchanged. *)
Definition stable_task (t : TaskFile.t) : Prop :=
  TaskFile.activeForm t ≠ JsNull
  ∧ is_Some (TaskFile.owner t)
  ∧ ∃ m : gmap string JsValue,
      TaskFile.metadata t = Some m
      ∧ ∀ k, k ∈ task_reserved_keys → m !! k = None.

(** Two external tasks that agree in every field other than the creation
    time. *)
Definition same_but_created_at (e1 e2 : ProtocolTask.t) : Prop :=
  ProtocolTask.schema_version e1 = ProtocolTask.schema_version e2
  ∧ ProtocolTask.id e1 = ProtocolTask.id e2
  ∧ ProtocolTask.subject e1 = ProtocolTask.subject e2
  ∧ ProtocolTask.description e1 = ProtocolTask.description e2
  ∧ ProtocolTask.status e1 = ProtocolTask.status e2
  ∧ ProtocolTask.owner e1 = ProtocolTask.owner e2
  ∧ ProtocolTask.depends_on e1 = ProtocolTask.depends_on e2
  ∧ ProtocolTask.version e1 = ProtocolTask.version e2
  ∧ ProtocolTask.metadata e1 = ProtocolTask.metadata e2.

(** A second task that a round trip leaves unchanged. *)
Definition sample_task_review : TaskFile.t :=
  {| TaskFile.id := "13";
     TaskFile.subject := "Review the parser fix";
     TaskFile.description := "";
     TaskFile.activeForm := JsUndefined;
     TaskFile.status := "pending";
     TaskFile.owner := Some "worker-2";
     TaskFile.blocks := [];
     TaskFile.blockedBy := ["7"];
     TaskFile.metadata := Some ∅;
     TaskFile.claimedBy := JsUndefined;
     TaskFile.claimedAt := JsUndefined;
     TaskFile.claimPid := JsUndefined |}.

(** The same external heartbeat with another status field. *)
Definition with_status (hb : ProtocolHeartbeat.t) (s : JsValue) : ProtocolHeartbeat.t :=
  {| ProtocolHeartbeat.pid := ProtocolHeartbeat.pid hb;
     ProtocolHeartbeat.last_active_at := ProtocolHeartbeat.last_active_at hb;
     ProtocolHeartbeat.status := s;
     ProtocolHeartbeat.current_task_id := ProtocolHeartbeat.current_task_id hb;
     ProtocolHeartbeat.metadata := ProtocolHeartbeat.metadata hb |}.

(** An external task with no metadata at all. *)
Definition sample_protocol_task_bare : ProtocolTask.t :=
  {| ProtocolTask.schema_version := 1%float;
     ProtocolTask.id := "11";
     ProtocolTask.subject := "Write the changelog";
     ProtocolTask.description := "";
     ProtocolTask.status := "pending";
     ProtocolTask.owner := Some "";
     ProtocolTask.depends_on := Some [];
     ProtocolTask.version := 4%float;
     ProtocolTask.metadata := None;
     ProtocolTask.created_at := "2025-01-01T00:00:00.000Z" |}.

(** A task whose own metadata uses a reserved key. *)
Definition sample_task_colliding : TaskFile.t :=
  {| TaskFile.id := "12";
     TaskFile.subject := "Tag the release";
     TaskFile.description := "";
     TaskFile.activeForm := JsUndefined;
     TaskFile.status := "pending";
     TaskFile.owner := None;
     TaskFile.blocks := [];
     TaskFile.blockedBy := [];
     TaskFile.metadata :=
       Some (<[ "blocks" := JsString "user note" ]>
               (<[ "priority" := JsString "low" ]> ∅));
     TaskFile.claimedBy := JsUndefined;
     TaskFile.claimedAt := JsUndefined;
     TaskFile.claimPid := JsUndefined |}.

(** An external heartbeat whose metadata holds [null] under every reserved
    key. *)
Definition sample_protocol_heartbeat_nulls : ProtocolHeartbeat.t :=
  sample_protocol_heartbeat
    (Some (js_define ∅
             [ ("workerName", JsNull); ("teamName", JsNull); ("provider", JsNull);
               ("consecutiveErrors", JsNull); ("omcStatus", JsNull) ])).

(** ** Lookup in objects built by property definitions *)

Section ObjectLemmas.
Implicit Types (o : gmap string JsValue) (defs : list (string * JsValue)).
Implicit Types (k : string) (v : JsValue).

Lemma js_define_cons o k v defs :
  js_define o ((k, v) :: defs) = js_define (<[k := v]> o) defs.
Proof. reflexivity. Qed.

(** A key that no definition names keeps the value it had. *)
Lemma js_define_lookup_other o defs k :
  k ∉ defs.*1 → js_define o defs !! k = o !! k.
Proof.
  revert o. induction defs as [|[k' v'] defs IH]; intros o Hk; [done|].
  rewrite js_define_cons, IH.
  - apply lookup_insert_ne. intros ->. apply Hk. simpl. left.
  - intros Hin. apply Hk. simpl. by right.
Qed.

(** With pairwise distinct keys, each definition is what a read gives. *)
Lemma js_define_lookup_defined o defs k v :
  NoDup defs.*1 → (k, v) ∈ defs → js_define o defs !! k = Some v.
Proof.
  revert o. induction defs as [|[k' v'] defs IH]; intros o Hnd Hin.
  - by apply elem_of_nil in Hin.
  - simpl in Hnd. apply NoDup_cons in Hnd as [Hfresh Hnd].
    rewrite js_define_cons. apply elem_of_cons in Hin as [Heq|Hin].
    + injection Heq as -> ->.
      rewrite js_define_lookup_other by done. apply lookup_insert_eq.
    + by apply IH.
Qed.

Lemma includes_true (arr : list string) k : includes arr k = true ↔ k ∈ arr.
Proof.
  unfold includes. rewrite existsb_exists. split.
  - intros (x & Hin & Heq). apply String.eqb_eq in Heq as ->.
    by apply list_elem_of_In.
  - intros Hin. exists k. split; [by apply list_elem_of_In|apply String.eqb_refl].
Qed.

(** The entries of an object that pass a test on the key, made into an
    object again: a read gives the old value under a passing key and
    nothing under a failing one. *)
Lemma fromEntries_filter_entries_lookup (keep : string → bool) o k :
  Object_fromEntries (filter (λ kv, keep kv.1) (Object_entries o)) !! k
  = if keep k then o !! k else None.
Proof.
  unfold Object_fromEntries, Object_entries.
  set (kept := filter (λ kv : string * JsValue, keep kv.1) (map_to_list o)).
  assert (Hnd : NoDup kept.*1).
  { eapply sublist_NoDup; [apply (NoDup_fst_map_to_list o)|].
    apply fmap_sublist, sublist_filter. }
  destruct (keep k) eqn:Hkeep, (o !! k) as [v|] eqn:Hlook.
  - apply js_define_lookup_defined; [done|].
    apply list_elem_of_filter. split; [simpl; by rewrite Hkeep|].
    by apply elem_of_map_to_list.
  - rewrite js_define_lookup_other; [done|].
    intros ([k' v'] & -> & Hin)%list_elem_of_fmap.
    apply list_elem_of_filter in Hin as [_ Hin].
    apply elem_of_map_to_list in Hin. simpl in Hlook. congruence.
  - rewrite js_define_lookup_other; [done|].
    intros ([k' v'] & -> & Hin)%list_elem_of_fmap.
    apply list_elem_of_filter in Hin as [Hk _]. simpl in Hk, Hkeep.
    rewrite Hkeep in Hk. done.
  - rewrite js_define_lookup_other; [done|].
    intros ([k' v'] & -> & Hin)%list_elem_of_fmap.
    apply list_elem_of_filter in Hin as [Hk _]. simpl in Hk, Hkeep.
    rewrite Hkeep in Hk. done.
Qed.
End ObjectLemmas.

(** ** Tasks *)

(** Reads a key of an object literal whose keys are written out. *)
Ltac read_literal :=
  unfold js_get, js_define; cbn [foldl fst snd default from_option id];
  repeat (rewrite lookup_insert_ne by done);
  rewrite ?lookup_insert_eq; cbn [default from_option id].

Section TaskReads.
Variables (now : string) (t : TaskFile.t).

Let back : TaskFile.t := fromProtocolTask (toProtocolTask now t).

Lemma roundtrip_blocks : TaskFile.blocks back = TaskFile.blocks t.
Proof.
  unfold back, fromProtocolTask, toProtocolTask.
  cbn [TaskFile.blocks ProtocolTask.metadata default from_option id].
  by read_literal.
Qed.

Lemma roundtrip_blockedBy : TaskFile.blockedBy back = TaskFile.blockedBy t.
Proof.
  unfold back, fromProtocolTask, toProtocolTask.
  cbn [TaskFile.blockedBy ProtocolTask.depends_on].
  by destruct (TaskFile.blockedBy t).
Qed.

Lemma roundtrip_activeForm :
  TaskFile.activeForm back = TaskFile.activeForm t ?? JsUndefined.
Proof.
  unfold back, fromProtocolTask, toProtocolTask.
  cbn [TaskFile.activeForm ProtocolTask.metadata default from_option id].
  by read_literal.
Qed.

Lemma roundtrip_claim :
  TaskFile.claimedBy back = TaskFile.claimedBy t
  ∧ TaskFile.claimedAt back = TaskFile.claimedAt t
  ∧ TaskFile.claimPid back = TaskFile.claimPid t.
Proof.
  unfold back, fromProtocolTask, toProtocolTask.
  cbn [TaskFile.claimedBy TaskFile.claimedAt TaskFile.claimPid
       ProtocolTask.metadata default from_option id].
  repeat split; by read_literal.
Qed.
End TaskReads.

(** C1. For every internal task record [t] that carries values of its
    declared types, has a non-empty owner and whose metadata has none of
    the reserved keys, [fromProtocolTask (toProtocolTask t)] has the same
    [blocks], [blockedBy], [activeForm], [claimedBy], [claimedAt] and
    [claimPid] as [t]; an empty [blockedBy] is sent as an absent
    [depends_on] and comes back as the empty list. *)
Theorem fromProtocolTask_toProtocolTask_fields (now : string) (t : TaskFile.t) :
  TaskFile.well_typed t = true →
  TaskFile.has_owner t = true →
  (∀ k, k ∈ task_reserved_keys → default ∅ (TaskFile.metadata t) !! k = None) →
  let back := fromProtocolTask (toProtocolTask now t) in
  TaskFile.blocks back = TaskFile.blocks t
  ∧ TaskFile.blockedBy back = TaskFile.blockedBy t
  ∧ TaskFile.activeForm back = TaskFile.activeForm t
  ∧ TaskFile.claimedBy back = TaskFile.claimedBy t
  ∧ TaskFile.claimedAt back = TaskFile.claimedAt t
  ∧ TaskFile.claimPid back = TaskFile.claimPid t
  ∧ (TaskFile.blockedBy t = [] →
     ProtocolTask.depends_on (toProtocolTask now t) = None
     ∧ TaskFile.blockedBy back = []).
Proof.
  intros Hty _ _ back.
  destruct (roundtrip_claim now t) as (Hby & Hat & Hpid).
  split; [apply roundtrip_blocks|].
  split; [apply roundtrip_blockedBy|].
  split.
  { unfold back. rewrite roundtrip_activeForm.
    unfold TaskFile.well_typed in Hty.
    repeat (apply andb_prop in Hty as [Hty _]).
    by destruct (TaskFile.activeForm t). }
  split; [exact Hby|]. split; [exact Hat|]. split; [exact Hpid|].
  intros Hempty. split.
  - cbn [toProtocolTask ProtocolTask.depends_on]. by rewrite Hempty.
  - unfold back. by rewrite roundtrip_blockedBy.
Qed.

Lemma fromProtocolTask_toProtocolTask_fields_witness :
  TaskFile.well_typed sample_task = true
  ∧ TaskFile.has_owner sample_task = true
  ∧ (∀ k, k ∈ task_reserved_keys →
       default ∅ (TaskFile.metadata sample_task) !! k = None)
  ∧ TaskFile.activeForm
      (fromProtocolTask (toProtocolTask "2025-01-01T00:00:00.000Z" sample_task))
    = JsString "Fixing the parser".
Proof.
  assert (Hfree : ∀ k, k ∈ task_reserved_keys →
            default ∅ (TaskFile.metadata sample_task) !! k = None).
  { intros k Hk. unfold task_reserved_keys in Hk.
    repeat (apply elem_of_cons in Hk as [->|Hk]; [reflexivity|]).
    by apply elem_of_nil in Hk. }
  split; [reflexivity|]. split; [reflexivity|]. split; [exact Hfree|].
  exact (proj1 (proj2 (proj2
    (fromProtocolTask_toProtocolTask_fields "2025-01-01T00:00:00.000Z"
       sample_task eq_refl eq_refl Hfree)))).
Defined.

(** C4. For every external task record [e], the metadata of
    [fromProtocolTask e] is the metadata of [e] (the empty object when [e]
    has none) restricted to the keys outside the reserved set: a reserved
    key is never present, and a read under any other key gives what it
    gives in [e]. *)
Theorem fromProtocolTask_metadata (e : ProtocolTask.t) :
  let meta := default ∅ (ProtocolTask.metadata e) in
  ∃ m : gmap string JsValue,
    TaskFile.metadata (fromProtocolTask e) = Some m
    ∧ m = filter (λ kv, kv.1 ∉ task_reserved_keys) meta
    ∧ (∀ k, k ∈ task_reserved_keys → m !! k = None)
    ∧ (∀ k, k ∉ task_reserved_keys → m !! k = meta !! k).
Proof.
  intros meta. eexists. split; [reflexivity|].
  fold meta.
  set (keep := λ k : string, negb (includes task_reserved_keys k)).
  assert (Hread : ∀ k,
    Object_fromEntries
      (filter (λ kv, negb (includes task_reserved_keys kv.1)) (Object_entries meta))
      !! k
    = if keep k then meta !! k else None).
  { intros k. apply (fromEntries_filter_entries_lookup keep). }
  assert (Hkeep : ∀ k, keep k = true ↔ k ∉ task_reserved_keys).
  { intros k. unfold keep. rewrite negb_true_iff, <- not_true_iff_false.
    by rewrite includes_true. }
  split; [|split].
  - apply map_eq. intros k. rewrite Hread.
    destruct (keep k) eqn:Hk.
    + apply Hkeep in Hk. symmetry.
      destruct (meta !! k) as [v|] eqn:Hlook.
      * by apply map_lookup_filter_Some.
      * apply map_lookup_filter_None. by left.
    + symmetry. apply map_lookup_filter_None. right. intros v _ Hout.
      apply Hkeep in Hout. simpl in Hout. congruence.
  - intros k Hin. rewrite Hread. destruct (keep k) eqn:Hk; [|done].
    by apply Hkeep in Hk.
  - intros k Hout. rewrite Hread. apply Hkeep in Hout. by rewrite Hout.
Qed.

Lemma fromProtocolTask_metadata_witness :
  ∃ m : gmap string JsValue,
    TaskFile.metadata (fromProtocolTask sample_protocol_task) = Some m
    ∧ m !! "blocks" = None
    ∧ m !! "priority" = Some (JsString "high").
Proof.
  destruct (fromProtocolTask_metadata sample_protocol_task)
    as (m & Hm & _ & Hreserved & Hother).
  exists m. split; [exact Hm|]. split.
  - apply Hreserved. unfold task_reserved_keys. apply elem_of_cons. by left.
  - rewrite Hother; [reflexivity|].
    unfold task_reserved_keys. intros Hin.
    repeat (apply elem_of_cons in Hin as [Heq|Hin]; [discriminate Heq|]).
    by apply elem_of_nil in Hin.
Defined.

(** C7. Owner handling differs between the two task converters: an internal
    task whose owner is unset or the empty string gives an external record
    with no owner, and an external task with no owner gives an internal
    record whose owner is the empty string. *)
Theorem task_owner_asymmetry :
  (∀ (now : string) (t : TaskFile.t),
     TaskFile.owner t = None ∨ TaskFile.owner t = Some "" →
     ProtocolTask.owner (toProtocolTask now t) = None)
  ∧ (∀ e : ProtocolTask.t,
       ProtocolTask.owner e = None →
       TaskFile.owner (fromProtocolTask e) = Some "").
Proof.
  split.
  - intros now t [Hnone|Hempty]; cbn [toProtocolTask ProtocolTask.owner].
    + by rewrite Hnone.
    + by rewrite Hempty.
  - intros e Hnone. cbn [fromProtocolTask TaskFile.owner]. by rewrite Hnone.
Qed.

Lemma task_owner_asymmetry_witness :
  ProtocolTask.owner (toProtocolTask "2025-01-01T00:00:00.000Z" sample_task_blocked)
  = None
  ∧ TaskFile.owner (fromProtocolTask sample_protocol_task) = Some "".
Proof.
  split.
  - apply (proj1 task_owner_asymmetry). right. reflexivity.
  - apply (proj2 task_owner_asymmetry). reflexivity.
Defined.

(** C8. For every internal task record with an empty [blockedBy],
    [toProtocolTask] gives an external record with no [depends_on] (absent,
    not an empty list); with a non-empty [blockedBy], [depends_on] is that
    list. *)
Theorem toProtocolTask_depends_on (now : string) (t : TaskFile.t) :
  (TaskFile.blockedBy t = [] →
   ProtocolTask.depends_on (toProtocolTask now t) = None)
  ∧ (TaskFile.blockedBy t ≠ [] →
     ProtocolTask.depends_on (toProtocolTask now t) = Some (TaskFile.blockedBy t)).
Proof.
  cbn [toProtocolTask ProtocolTask.depends_on].
  destruct (TaskFile.blockedBy t) as [|b bs]; split; intros Hb; done.
Qed.

Lemma toProtocolTask_depends_on_witness :
  ProtocolTask.depends_on (toProtocolTask "2025-01-01T00:00:00.000Z" sample_task)
  = None
  ∧ ProtocolTask.depends_on
      (toProtocolTask "2025-01-01T00:00:00.000Z" sample_task_blocked)
    = Some ["7"; "3"].
Proof.
  split.
  - apply (proj1 (toProtocolTask_depends_on _ sample_task)). reflexivity.
  - apply (proj2 (toProtocolTask_depends_on _ sample_task_blocked)). discriminate.
Defined.

(** ** Messages *)

Section MessageType.
Variable JSON_stringify : JsValue → string.
Variable Number_toString : N → number → string.
Variables (random : number) (msg : OutboxMessage.t) (workerName : string).

Let sent : ProtocolMessage.t :=
  toProtocolMessage JSON_stringify Number_toString random msg workerName.

(** The external type as one function of the kind. *)
Lemma toProtocolMessage_type_cases :
  ProtocolMessage.type sent =
    if includes status_kinds (OutboxMessage.type msg) then "status"
    else if includes result_kinds (OutboxMessage.type msg) then "result"
    else "chat".
Proof.
  unfold sent, toProtocolMessage, status_kinds, result_kinds, includes.
  cbn [ProtocolMessage.type existsb].
  generalize (OutboxMessage.type msg). intros k.
  repeat match goal with
         | |- context [String.eqb k ?lit] =>
             destruct (String.eqb_spec k lit) as [->|?]; [reflexivity|]
         end.
  reflexivity.
Qed.
End MessageType.

(** No kind is on both lists. *)
Lemma result_kind_not_status (k : string) :
  k ∈ result_kinds → includes status_kinds k = false.
Proof.
  unfold result_kinds. intros Hin.
  repeat (apply elem_of_cons in Hin as [->|Hin]; [reflexivity|]).
  by apply elem_of_nil in Hin.
Qed.

(** C3. For every internal outbound message and sender name,
    [toProtocolMessage] gives the external type [status] when the kind is
    one of [ready], [idle], [heartbeat], [shutdown_ack], [drain_ack],
    [error]; [result] when it is [task_complete] or [task_failed]; and
    [chat] for every other kind. *)
Theorem toProtocolMessage_type
    (JSON_stringify : JsValue → string) (Number_toString : N → number → string)
    (random : number) (msg : OutboxMessage.t) (workerName : string) :
  let ty := ProtocolMessage.type
              (toProtocolMessage JSON_stringify Number_toString random msg workerName) in
  let kind := OutboxMessage.type msg in
  (kind ∈ status_kinds → ty = "status")
  ∧ (kind ∈ result_kinds → ty = "result")
  ∧ (kind ∉ status_kinds → kind ∉ result_kinds → ty = "chat").
Proof.
  intros ty kind. unfold ty. rewrite toProtocolMessage_type_cases. fold kind.
  split; [|split].
  - intros Hin. apply includes_true in Hin. by rewrite Hin.
  - intros Hin. rewrite (result_kind_not_status _ Hin).
    apply includes_true in Hin. by rewrite Hin.
  - intros Hs Hr. rewrite <- includes_true in Hs, Hr.
    apply not_true_is_false in Hs, Hr. by rewrite Hs, Hr.
Qed.

Lemma toProtocolMessage_type_witness :
  ProtocolMessage.type
    (toProtocolMessage (λ _, "{}") (λ _ _, "0.5") 0.5%float
       (sample_outbox "drain_ack") "worker-1") = "status"
  ∧ ProtocolMessage.type
      (toProtocolMessage (λ _, "{}") (λ _ _, "0.5") 0.5%float
         (sample_outbox "task_failed") "worker-1") = "result"
  ∧ ProtocolMessage.type
      (toProtocolMessage (λ _, "{}") (λ _ _, "0.5") 0.5%float
         (sample_outbox "progress") "worker-1") = "chat".
Proof.
  split; [|split].
  - apply (proj1 (toProtocolMessage_type _ _ _ (sample_outbox "drain_ack") _)).
    apply includes_true. reflexivity.
  - apply (proj1 (proj2 (toProtocolMessage_type _ _ _ (sample_outbox "task_failed") _))).
    apply includes_true. reflexivity.
  - apply (proj2 (proj2 (toProtocolMessage_type _ _ _ (sample_outbox "progress") _)));
      intros Hin%includes_true; discriminate Hin.
Defined.

(** C9. For every external message, [fromProtocolMessage] gives the
    internal type [message] exactly when the external type is
    [instruction], and [context] for every other external type; the body
    is copied into [content] and the creation timestamp into [timestamp]. *)
Theorem fromProtocolMessage_fields (msg : ProtocolMessage.t) :
  let inbox := fromProtocolMessage msg in
  (InboxMessage.type inbox = "message" ↔ ProtocolMessage.type msg = "instruction")
  ∧ (ProtocolMessage.type msg ≠ "instruction" → InboxMessage.type inbox = "context")
  ∧ InboxMessage.content inbox = ProtocolMessage.body msg
  ∧ InboxMessage.timestamp inbox = ProtocolMessage.created_at msg.
Proof.
  cbn [fromProtocolMessage InboxMessage.type InboxMessage.content
       InboxMessage.timestamp].
  destruct (String.eqb_spec (ProtocolMessage.type msg) "instruction") as [->|Hne].
  - repeat split; done.
  - split; [split|repeat split; done].
    + intros Heq. discriminate Heq.
    + intros Heq. by destruct Hne.
Qed.

Lemma fromProtocolMessage_fields_witness :
  InboxMessage.type (fromProtocolMessage (sample_protocol_message "instruction"))
  = "message"
  ∧ InboxMessage.type (fromProtocolMessage (sample_protocol_message "status"))
    = "context".
Proof.
  split.
  - apply (proj1 (fromProtocolMessage_fields (sample_protocol_message "instruction"))).
    reflexivity.
  - apply (proj1 (proj2 (fromProtocolMessage_fields (sample_protocol_message "status")))).
    discriminate.
Defined.

(** ** Heartbeats *)

(** What a read of the metadata written by [toProtocolHeartbeat] gives
    under the key [omcStatus]. *)
Lemma toProtocolHeartbeat_omcStatus (hb : HeartbeatData.t) :
  ∃ m : gmap string JsValue,
    ProtocolHeartbeat.metadata (toProtocolHeartbeat hb) = Some m
    ∧ m !! "omcStatus" = Some (HeartbeatData.status hb).
Proof.
  eexists. split; [reflexivity|].
  unfold js_define. cbn [foldl fst snd]. apply lookup_insert_eq.
Qed.

(** C2. For every internal heartbeat record [h] and fallback names,
    [fromProtocolHeartbeat (toProtocolHeartbeat h) w t] has the status of
    [h], also when that status is [quarantined], which the forward
    direction replaces by [shutdown] in the external status field. *)
Theorem fromProtocolHeartbeat_toProtocolHeartbeat_status
    (h : HeartbeatData.t) (w t : string) :
  HeartbeatData.status (fromProtocolHeartbeat (toProtocolHeartbeat h) w t)
  = HeartbeatData.status h
  ∧ (HeartbeatData.status h = JsString "quarantined" →
     ProtocolHeartbeat.status (toProtocolHeartbeat h) = JsString "shutdown"
     ∧ HeartbeatData.status (fromProtocolHeartbeat (toProtocolHeartbeat h) w t)
       = JsString "quarantined").
Proof.
  assert (Hback :
    HeartbeatData.status (fromProtocolHeartbeat (toProtocolHeartbeat h) w t)
    = HeartbeatData.status h).
  { unfold fromProtocolHeartbeat, toProtocolHeartbeat.
    cbn [HeartbeatData.status ProtocolHeartbeat.metadata ProtocolHeartbeat.status
         default from_option id].
    read_literal. by destruct (HeartbeatData.status h). }
  split; [exact Hback|].
  intros Hq. split; [|by rewrite Hback].
  cbn [toProtocolHeartbeat ProtocolHeartbeat.status]. by rewrite Hq.
Qed.

Lemma fromProtocolHeartbeat_toProtocolHeartbeat_status_witness :
  ProtocolHeartbeat.status (toProtocolHeartbeat (sample_heartbeat "quarantined"))
  = JsString "shutdown"
  ∧ HeartbeatData.status
      (fromProtocolHeartbeat (toProtocolHeartbeat (sample_heartbeat "quarantined"))
         "w1" "t1")
    = JsString "quarantined".
Proof.
  apply (proj2 (fromProtocolHeartbeat_toProtocolHeartbeat_status
                  (sample_heartbeat "quarantined") "w1" "t1")).
  reflexivity.
Defined.

(** C5. For every internal heartbeat record whose status is [quarantined],
    [toProtocolHeartbeat] gives an external record whose status is
    [shutdown] and whose metadata has [quarantined] under [omcStatus]. *)
Theorem toProtocolHeartbeat_quarantined (h : HeartbeatData.t) :
  HeartbeatData.status h = JsString "quarantined" →
  ProtocolHeartbeat.status (toProtocolHeartbeat h) = JsString "shutdown"
  ∧ ∃ m : gmap string JsValue,
      ProtocolHeartbeat.metadata (toProtocolHeartbeat h) = Some m
      ∧ m !! "omcStatus" = Some (JsString "quarantined").
Proof.
  intros Hq. split.
  - cbn [toProtocolHeartbeat ProtocolHeartbeat.status]. by rewrite Hq.
  - destruct (toProtocolHeartbeat_omcStatus h) as (m & Hm & Hread).
    exists m. by rewrite <- Hq.
Qed.

Lemma toProtocolHeartbeat_quarantined_witness :
  HeartbeatData.status (sample_heartbeat "quarantined") = JsString "quarantined"
  ∧ ProtocolHeartbeat.status (toProtocolHeartbeat (sample_heartbeat "quarantined"))
    = JsString "shutdown".
Proof.
  split; [reflexivity|].
  exact (proj1 (toProtocolHeartbeat_quarantined
                  (sample_heartbeat "quarantined") eq_refl)).
Defined.

(** C6. For every external heartbeat whose metadata is absent, or has none
    of the reserved keys, [fromProtocolHeartbeat] with the fallback names
    [w] and [t] gives [workerName] [w], [teamName] [t], [provider] the
    literal [codex], [consecutiveErrors] 0 and the external status as it
    is. *)
Theorem fromProtocolHeartbeat_defaults
    (hb : ProtocolHeartbeat.t) (w t : string) :
  (ProtocolHeartbeat.metadata hb = None
   ∨ ∃ m : gmap string JsValue,
       ProtocolHeartbeat.metadata hb = Some m
       ∧ ∀ k, k ∈ heartbeat_reserved_keys → m !! k = None) →
  let h := fromProtocolHeartbeat hb w t in
  HeartbeatData.workerName h = JsString w
  ∧ HeartbeatData.teamName h = JsString t
  ∧ HeartbeatData.provider h = JsString "codex"
  ∧ HeartbeatData.consecutiveErrors h = JsNumber 0%float
  ∧ HeartbeatData.status h = ProtocolHeartbeat.status hb.
Proof.
  intros Hmeta h.
  assert (Hread : ∀ k, k ∈ heartbeat_reserved_keys →
            js_get (default ∅ (ProtocolHeartbeat.metadata hb)) k = JsUndefined).
  { intros k Hk. unfold js_get.
    destruct Hmeta as [->|(m & -> & Hnone)]; cbn [default from_option id].
    - by rewrite lookup_empty.
    - by rewrite (Hnone k Hk). }
  unfold h, fromProtocolHeartbeat.
  cbn [HeartbeatData.workerName HeartbeatData.teamName HeartbeatData.provider
       HeartbeatData.consecutiveErrors HeartbeatData.status].
  rewrite !Hread; [done|..]; unfold heartbeat_reserved_keys;
    repeat first [apply list_elem_of_here | apply list_elem_of_further].
Qed.

Lemma fromProtocolHeartbeat_defaults_witness :
  (let h := fromProtocolHeartbeat (sample_protocol_heartbeat None) "w1" "t1" in
   HeartbeatData.workerName h = JsString "w1"
   ∧ HeartbeatData.teamName h = JsString "t1"
   ∧ HeartbeatData.provider h = JsString "codex"
   ∧ HeartbeatData.consecutiveErrors h = JsNumber 0%float
   ∧ HeartbeatData.status h = JsString "polling")
  ∧ HeartbeatData.workerName
      (fromProtocolHeartbeat
         (sample_protocol_heartbeat (Some {[ "host" := JsString "build-3" ]}))
         "w1" "t1")
    = JsString "w1".
Proof.
  split.
  - apply (fromProtocolHeartbeat_defaults (sample_protocol_heartbeat None) "w1" "t1").
    left. reflexivity.
  - apply (fromProtocolHeartbeat_defaults
             (sample_protocol_heartbeat (Some {[ "host" := JsString "build-3" ]}))
             "w1" "t1").
    right. eexists. split; [reflexivity|].
    intros k Hk. unfold heartbeat_reserved_keys in Hk.
    repeat (apply elem_of_cons in Hk as [->|Hk]; [reflexivity|]).
    by apply elem_of_nil in Hk.
Defined.

(** ** The clock *)

(** The clock is an input of [toProtocolTask]: two readings give two
    different records for the same task. *)
Remark toProtocolTask_reads_clock (t : TaskFile.t) :
  toProtocolTask "2025-01-01T00:00:00.000Z" t
  ≠ toProtocolTask "2025-01-01T00:00:01.000Z" t.
Proof.
  intros Heq. apply (f_equal ProtocolTask.created_at) in Heq.
  discriminate Heq.
Qed.

(** ** Further properties: the metadata of tasks *)

Section ReservedKeys.
Implicit Types (m base : gmap string JsValue) (k : string).

Lemma includes_reserved_false k :
  includes task_reserved_keys k = false ↔ k ∉ task_reserved_keys.
Proof. by rewrite <- not_true_iff_false, includes_true. Qed.

(** Filtering the entries and rebuilding the object is the map filter. *)
Lemma fromEntries_unreserved m :
  Object_fromEntries
    (filter (λ kv, negb (includes task_reserved_keys kv.1)) (Object_entries m))
  = filter unreserved m.
Proof.
  apply map_eq. intros k.
  rewrite (fromEntries_filter_entries_lookup
             (λ k, negb (includes task_reserved_keys k))).
  rewrite map_lookup_filter.
  destruct (includes task_reserved_keys k) eqn:Hk; cbn [negb].
  - apply includes_true in Hk.
    destruct (m !! k) as [v|]; [|done]. cbn.
    rewrite option_guard_False; [done|]. cbn. tauto.
  - apply includes_reserved_false in Hk.
    destruct (m !! k) as [v|]; [|done]. cbn.
    by rewrite option_guard_True.
Qed.

Lemma filter_unreserved_lookup_reserved m k :
  k ∈ task_reserved_keys → filter unreserved m !! k = None.
Proof.
  intros Hk. apply map_lookup_filter_None. right. intros v _ Hout.
  by apply Hout.
Qed.

Lemma filter_unreserved_lookup_other m k :
  k ∉ task_reserved_keys → filter unreserved m !! k = m !! k.
Proof.
  intros Hk. rewrite map_lookup_filter.
  destruct (m !! k) as [v|]; [|done]. cbn. by rewrite option_guard_True.
Qed.

(** An object without reserved keys is its own restriction. *)
Lemma filter_unreserved_id m :
  (∀ k, k ∈ task_reserved_keys → m !! k = None) → filter unreserved m = m.
Proof.
  intros Hfree. apply map_eq. intros k.
  destruct (decide (k ∈ task_reserved_keys)) as [Hk|Hk].
  - by rewrite filter_unreserved_lookup_reserved, Hfree.
  - by apply filter_unreserved_lookup_other.
Qed.

(** Definitions of reserved keys do not show after the restriction. *)
Lemma filter_unreserved_define base (defs : list (string * JsValue)) :
  defs.*1 = task_reserved_keys →
  filter unreserved (js_define base defs) = filter unreserved base.
Proof.
  intros Hkeys. apply map_eq. intros k.
  destruct (decide (k ∈ task_reserved_keys)) as [Hk|Hk].
  - by rewrite !filter_unreserved_lookup_reserved.
  - rewrite !filter_unreserved_lookup_other by done.
    apply js_define_lookup_other. by rewrite Hkeys.
Qed.

(** Under definitions of all the reserved keys, the restriction of the
    base cannot be told from the base. *)
Lemma js_define_filter_unreserved base (defs : list (string * JsValue)) :
  defs.*1 = task_reserved_keys →
  js_define (filter unreserved base) defs = js_define base defs.
Proof.
  intros Hkeys. apply map_eq. intros k.
  destruct (decide (k ∈ task_reserved_keys)) as [Hk|Hk].
  - assert (Hnd : NoDup defs.*1).
    { rewrite Hkeys. unfold task_reserved_keys. apply NoDup_ListNoDup.
      repeat constructor; cbn; intuition discriminate. }
    rewrite <- Hkeys in Hk.
    apply list_elem_of_fmap in Hk as ([k' v] & -> & Hin).
    by rewrite !(js_define_lookup_defined _ _ _ _ Hnd Hin).
  - rewrite !js_define_lookup_other by (by rewrite Hkeys).
    by apply filter_unreserved_lookup_other.
Qed.

Lemma fromProtocolTask_metadata_filter (e : ProtocolTask.t) :
  TaskFile.metadata (fromProtocolTask e)
  = Some (filter unreserved (default ∅ (ProtocolTask.metadata e))).
Proof.
  cbn [fromProtocolTask TaskFile.metadata]. by rewrite fromEntries_unreserved.
Qed.

Lemma roundtrip_metadata (now : string) (t : TaskFile.t) :
  TaskFile.metadata (fromProtocolTask (toProtocolTask now t))
  = Some (filter unreserved (default ∅ (TaskFile.metadata t))).
Proof.
  rewrite fromProtocolTask_metadata_filter.
  cbn [toProtocolTask ProtocolTask.metadata default from_option id].
  by rewrite filter_unreserved_define.
Qed.

Lemma roundtrip_owner (now : string) (t : TaskFile.t) :
  TaskFile.owner (fromProtocolTask (toProtocolTask now t))
  = Some (default "" (TaskFile.owner t)).
Proof.
  cbn [fromProtocolTask toProtocolTask TaskFile.owner ProtocolTask.owner].
  destruct (TaskFile.owner t) as [s|]; [|done].
  by destruct (String.eqb_spec s "") as [->|_].
Qed.
End ReservedKeys.

(** ** Further properties: tasks *)

Lemma TaskFile_ext (a b : TaskFile.t) :
  TaskFile.id a = TaskFile.id b →
  TaskFile.subject a = TaskFile.subject b →
  TaskFile.description a = TaskFile.description b →
  TaskFile.activeForm a = TaskFile.activeForm b →
  TaskFile.status a = TaskFile.status b →
  TaskFile.owner a = TaskFile.owner b →
  TaskFile.blocks a = TaskFile.blocks b →
  TaskFile.blockedBy a = TaskFile.blockedBy b →
  TaskFile.metadata a = TaskFile.metadata b →
  TaskFile.claimedBy a = TaskFile.claimedBy b →
  TaskFile.claimedAt a = TaskFile.claimedAt b →
  TaskFile.claimPid a = TaskFile.claimPid b →
  a = b.
Proof. destruct a, b; cbn; intros; by subst. Qed.

(** The tasks that the round trip leaves as they are: the active form is
    not [null], the owner is set, and the metadata is present and uses no
    reserved key. *)
Lemma roundtrip_fixed (now : string) (t : TaskFile.t) :
  TaskFile.activeForm t ≠ JsNull →
  is_Some (TaskFile.owner t) →
  (∃ m : gmap string JsValue,
     TaskFile.metadata t = Some m
     ∧ ∀ k, k ∈ task_reserved_keys → m !! k = None) →
  fromProtocolTask (toProtocolTask now t) = t.
Proof.
  intros Hform [o Howner] (m & Hmeta & Hfree).
  destruct (roundtrip_claim now t) as (Hby & Hat & Hpid).
  apply TaskFile_ext; try done.
  - rewrite roundtrip_activeForm. by destruct (TaskFile.activeForm t).
  - by rewrite roundtrip_owner, Howner.
  - apply roundtrip_blocks.
  - apply roundtrip_blockedBy.
  - rewrite roundtrip_metadata, Hmeta. cbn [default from_option id].
    by rewrite filter_unreserved_id.
Qed.

(** What [fromProtocolTask] returns is always such a task. *)
Lemma fromProtocolTask_fixed_shape (e : ProtocolTask.t) :
  TaskFile.activeForm (fromProtocolTask e) ≠ JsNull
  ∧ is_Some (TaskFile.owner (fromProtocolTask e))
  ∧ ∃ m : gmap string JsValue,
      TaskFile.metadata (fromProtocolTask e) = Some m
      ∧ ∀ k, k ∈ task_reserved_keys → m !! k = None.
Proof.
  split; [|split].
  - cbn [fromProtocolTask TaskFile.activeForm].
    by destruct (js_get _ "activeForm").
  - by eexists.
  - eexists. split; [apply fromProtocolTask_metadata_filter|].
    intros k Hk. by apply filter_unreserved_lookup_reserved.
Qed.

(** X1. In the metadata that [toProtocolTask] writes, each reserved key
    holds the internal field of that name, whatever the task's own metadata
    had under it, and every other key holds what the task's own metadata
    holds. *)
Theorem toProtocolTask_metadata_entries (now : string) (t : TaskFile.t) :
  ∃ m : gmap string JsValue,
    ProtocolTask.metadata (toProtocolTask now t) = Some m
    ∧ m !! "blocks" = Some (JsArray (TaskFile.blocks t))
    ∧ m !! "activeForm" = Some (TaskFile.activeForm t)
    ∧ m !! "claimedBy" = Some (TaskFile.claimedBy t)
    ∧ m !! "claimedAt" = Some (TaskFile.claimedAt t)
    ∧ m !! "claimPid" = Some (TaskFile.claimPid t)
    ∧ ∀ k, k ∉ task_reserved_keys →
        m !! k = default ∅ (TaskFile.metadata t) !! k.
Proof.
  eexists. split; [reflexivity|].
  repeat (split; [by read_literal|]).
  intros k Hk. by apply js_define_lookup_other.
Qed.

Lemma toProtocolTask_metadata_entries_witness :
  ∃ m : gmap string JsValue,
    ProtocolTask.metadata
      (toProtocolTask "2025-01-01T00:00:00.000Z" sample_task_colliding) = Some m
    ∧ m !! "blocks" = Some (JsArray [])
    ∧ m !! "priority" = Some (JsString "low").
Proof.
  destruct (toProtocolTask_metadata_entries
              "2025-01-01T00:00:00.000Z" sample_task_colliding)
    as (m & Hm & Hblocks & _ & _ & _ & _ & Hother).
  exists m. split; [exact Hm|]. split; [exact Hblocks|].
  rewrite Hother; [reflexivity|].
  intros Hin%includes_true. discriminate Hin.
Defined.

(** X2. After a round trip the task's metadata is its own metadata (the
    empty object when it had none) without the reserved keys: entries the
    task kept under a reserved key are lost, all others are kept. *)
Theorem task_roundtrip_metadata (now : string) (t : TaskFile.t) :
  let base := default ∅ (TaskFile.metadata t) in
  ∃ m : gmap string JsValue,
    TaskFile.metadata (fromProtocolTask (toProtocolTask now t)) = Some m
    ∧ m = filter unreserved base
    ∧ (∀ k, k ∈ task_reserved_keys → m !! k = None)
    ∧ (∀ k, k ∉ task_reserved_keys → m !! k = base !! k)
    ∧ (TaskFile.metadata t = None → m = ∅).
Proof.
  intros base. eexists. split; [apply roundtrip_metadata|].
  fold base. split; [done|]. split; [|split].
  - intros k Hk. by apply filter_unreserved_lookup_reserved.
  - intros k Hk. by apply filter_unreserved_lookup_other.
  - intros Hnone. unfold base. rewrite Hnone. apply map_filter_empty.
Qed.

Lemma task_roundtrip_metadata_witness :
  ∃ m : gmap string JsValue,
    TaskFile.metadata
      (fromProtocolTask
         (toProtocolTask "2025-01-01T00:00:00.000Z" sample_task_colliding))
    = Some m
    ∧ default ∅ (TaskFile.metadata sample_task_colliding) !! "blocks"
      = Some (JsString "user note")
    ∧ m !! "blocks" = None
    ∧ m !! "priority" = Some (JsString "low").
Proof.
  destruct (task_roundtrip_metadata
              "2025-01-01T00:00:00.000Z" sample_task_colliding)
    as (m & Hm & _ & Hreserved & Hother & _).
  exists m. split; [exact Hm|]. split; [reflexivity|]. split.
  - apply Hreserved. apply includes_true. reflexivity.
  - rewrite Hother; [reflexivity|].
    intros Hin%includes_true. discriminate Hin.
Defined.

(** X3. A task comes back from the round trip exactly as it was if and
    only if its active form is not [null], its owner is set (possibly to
    the empty string) and its metadata is present and uses no reserved
    key. *)
Theorem task_roundtrip_identity_iff (now : string) (t : TaskFile.t) :
  fromProtocolTask (toProtocolTask now t) = t
  ↔ TaskFile.activeForm t ≠ JsNull
    ∧ is_Some (TaskFile.owner t)
    ∧ ∃ m : gmap string JsValue,
        TaskFile.metadata t = Some m
        ∧ ∀ k, k ∈ task_reserved_keys → m !! k = None.
Proof.
  split.
  - intros Hfix.
    pose proof (fromProtocolTask_fixed_shape (toProtocolTask now t)) as Hshape.
    by rewrite Hfix in Hshape.
  - intros (Hform & Howner & Hmeta). by apply roundtrip_fixed.
Qed.

Lemma task_roundtrip_identity_iff_witness :
  fromProtocolTask (toProtocolTask "2025-01-01T00:00:00.000Z" sample_task)
  = sample_task
  ∧ fromProtocolTask
      (toProtocolTask "2025-01-01T00:00:00.000Z" sample_task_colliding)
    ≠ sample_task_colliding.
Proof.
  split.
  - apply task_roundtrip_identity_iff.
    split; [discriminate|]. split; [by eexists|].
    eexists. split; [reflexivity|].
    intros k Hk. unfold task_reserved_keys in Hk.
    repeat (apply elem_of_cons in Hk as [->|Hk]; [reflexivity|]).
    by apply elem_of_nil in Hk.
  - intros Hfix.
    apply (proj1 (task_roundtrip_identity_iff
                    "2025-01-01T00:00:00.000Z" sample_task_colliding)) in Hfix.
    destruct Hfix as (_ & Hset & _). destruct Hset as [o Ho]. discriminate Ho.
Defined.

(** X4. After a round trip the owner is always set: an unset owner comes
    back as the empty string, a set one as it was. So the owner survives
    the round trip exactly when it was set. *)
Theorem task_roundtrip_owner (now : string) (t : TaskFile.t) :
  let back := fromProtocolTask (toProtocolTask now t) in
  TaskFile.owner back = Some (default "" (TaskFile.owner t))
  ∧ (TaskFile.owner back = TaskFile.owner t ↔ is_Some (TaskFile.owner t)).
Proof.
  intros back. unfold back. rewrite roundtrip_owner. split; [done|].
  destruct (TaskFile.owner t) as [s|]; cbn.
  - split; [intros _; by eexists|done].
  - split; [intros Heq; discriminate Heq|intros [o Ho]; discriminate Ho].
Qed.

Lemma task_roundtrip_owner_witness :
  TaskFile.owner
    (fromProtocolTask
       (toProtocolTask "2025-01-01T00:00:00.000Z" sample_task_blocked))
  = TaskFile.owner sample_task_blocked.
Proof.
  apply (proj2 (task_roundtrip_owner "2025-01-01T00:00:00.000Z" sample_task_blocked)).
  by eexists.
Defined.

(** X5. Converting to the protocol and back is the identity on every
    record that [fromProtocolTask] has produced, whatever external task it
    came from and whatever the clock shows. *)
Theorem fromProtocolTask_roundtrip_stable (now : string) (e : ProtocolTask.t) :
  fromProtocolTask (toProtocolTask now (fromProtocolTask e)) = fromProtocolTask e.
Proof.
  destruct (fromProtocolTask_fixed_shape e) as (Hform & Howner & Hmeta).
  by apply roundtrip_fixed.
Qed.

(** X6. Sending a task that has been through a round trip gives the same
    external record as sending the task itself at the same time, provided
    its active form is not [null]. *)
Theorem toProtocolTask_after_roundtrip (now now' : string) (t : TaskFile.t) :
  TaskFile.activeForm t ≠ JsNull →
  toProtocolTask now (fromProtocolTask (toProtocolTask now' t))
  = toProtocolTask now t.
Proof.
  intros Hform.
  destruct (roundtrip_claim now' t) as (Hby & Hat & Hpid).
  pose proof (roundtrip_blocks now' t) as Hblocks.
  pose proof (roundtrip_blockedBy now' t) as Hblocked.
  pose proof (roundtrip_activeForm now' t) as Hactive.
  pose proof (roundtrip_owner now' t) as Howner.
  pose proof (roundtrip_metadata now' t) as Hmeta.
  assert (Hid : TaskFile.id (fromProtocolTask (toProtocolTask now' t))
                = TaskFile.id t) by reflexivity.
  assert (Hsubject : TaskFile.subject (fromProtocolTask (toProtocolTask now' t))
                     = TaskFile.subject t) by reflexivity.
  assert (Hdescr : TaskFile.description (fromProtocolTask (toProtocolTask now' t))
                   = TaskFile.description t) by reflexivity.
  assert (Hstatus : TaskFile.status (fromProtocolTask (toProtocolTask now' t))
                    = TaskFile.status t) by reflexivity.
  assert (Hnotnull : TaskFile.activeForm t ?? JsUndefined = TaskFile.activeForm t)
    by by destruct (TaskFile.activeForm t).
  rewrite Hnotnull in Hactive.
  generalize dependent (fromProtocolTask (toProtocolTask now' t)).
  intros back Hby Hat Hpid Hblocks Hblocked Hactive Howner Hmeta
         Hid Hsubject Hdescr Hstatus.
  unfold toProtocolTask.
  rewrite Hby, Hat, Hpid, Hblocks, Hblocked, Hactive, Howner, Hmeta,
          Hid, Hsubject, Hdescr, Hstatus.
  cbn [default from_option id].
  rewrite js_define_filter_unreserved by reflexivity.
  destruct (TaskFile.owner t) as [s|]; cbn; [|done].
  by destruct (String.eqb_spec s "") as [->|_].
Qed.

Lemma toProtocolTask_after_roundtrip_witness :
  toProtocolTask "2025-01-01T00:00:09.000Z"
    (fromProtocolTask
       (toProtocolTask "2025-01-01T00:00:00.000Z" sample_task_colliding))
  = toProtocolTask "2025-01-01T00:00:09.000Z" sample_task_colliding.
Proof.
  apply toProtocolTask_after_roundtrip. discriminate.
Defined.

(** [fromProtocolTask] does not read the creation time. *)
Lemma fromProtocolTask_same_but_created_at (e1 e2 : ProtocolTask.t) :
  same_but_created_at e1 e2 → fromProtocolTask e1 = fromProtocolTask e2.
Proof.
  intros (_ & Hid & Hsubject & Hdescr & Hstatus & Howner & Hdeps & _ & Hmeta).
  unfold fromProtocolTask.
  by rewrite Hid, Hsubject, Hdescr, Hstatus, Howner, Hdeps, Hmeta.
Qed.

(** X7. [toProtocolTask] loses nothing of a task that the round trip leaves
    unchanged: two such tasks whose external records agree in every field
    other than the creation time are the same task, whatever the two
    conversion times were. *)
Theorem toProtocolTask_injective_on_stable
    (now1 now2 : string) (t1 t2 : TaskFile.t) :
  stable_task t1 → stable_task t2 →
  same_but_created_at (toProtocolTask now1 t1) (toProtocolTask now2 t2) →
  t1 = t2.
Proof.
  intros (Hf1 & Ho1 & Hm1) (Hf2 & Ho2 & Hm2) Hsame.
  rewrite <- (roundtrip_fixed now1 t1), <- (roundtrip_fixed now2 t2) by done.
  by apply fromProtocolTask_same_but_created_at.
Qed.

Lemma toProtocolTask_injective_on_stable_witness :
  stable_task sample_task
  ∧ stable_task sample_task_review
  ∧ "2025-01-01T00:00:00.000Z" ≠ "2025-03-01T12:00:00.000Z"
  ∧ same_but_created_at
      (toProtocolTask "2025-01-01T00:00:00.000Z" sample_task)
      (toProtocolTask "2025-03-01T12:00:00.000Z" sample_task)
  ∧ sample_task = sample_task
  ∧ ¬ same_but_created_at
        (toProtocolTask "2025-01-01T00:00:00.000Z" sample_task)
        (toProtocolTask "2025-03-01T12:00:00.000Z" sample_task_review).
Proof.
  assert (Hfree : ∀ m : gmap string JsValue,
            (m = {[ "priority" := JsString "high" ]} ∨ m = ∅) →
            ∀ k, k ∈ task_reserved_keys → m !! k = None).
  { intros m Hm k Hk. unfold task_reserved_keys in Hk.
    repeat (apply elem_of_cons in Hk as [->|Hk];
            [by destruct Hm as [->| ->]|]).
    by apply elem_of_nil in Hk. }
  assert (Hstable : stable_task sample_task).
  { split; [discriminate|]. split; [by eexists|].
    eexists. split; [reflexivity|]. apply Hfree. by left. }
  assert (Hstable' : stable_task sample_task_review).
  { split; [discriminate|]. split; [by eexists|].
    eexists. split; [reflexivity|]. apply Hfree. by right. }
  assert (Hsame : same_but_created_at
            (toProtocolTask "2025-01-01T00:00:00.000Z" sample_task)
            (toProtocolTask "2025-03-01T12:00:00.000Z" sample_task)).
  { repeat split. }
  split; [exact Hstable|]. split; [exact Hstable'|].
  split; [discriminate|]. split; [exact Hsame|]. split.
  - exact (toProtocolTask_injective_on_stable _ _ _ _ Hstable Hstable Hsame).
  - intros Hsame'.
    pose proof (toProtocolTask_injective_on_stable _ _ _ _ Hstable Hstable' Hsame')
      as Heq.
    apply (f_equal TaskFile.id) in Heq. discriminate Heq.
Defined.

(** X8. From an external task without metadata, [fromProtocolTask] gives
    an empty [blocks] list, an empty metadata object, and [undefined] for
    the active form and the three claim fields. *)
Theorem fromProtocolTask_without_metadata (e : ProtocolTask.t) :
  ProtocolTask.metadata e = None →
  let t := fromProtocolTask e in
  TaskFile.blocks t = []
  ∧ TaskFile.metadata t = Some ∅
  ∧ TaskFile.activeForm t = JsUndefined
  ∧ TaskFile.claimedBy t = JsUndefined
  ∧ TaskFile.claimedAt t = JsUndefined
  ∧ TaskFile.claimPid t = JsUndefined.
Proof.
  intros Hnone t. unfold t.
  split; [|split]; [| |by cbn; rewrite Hnone].
  - cbn [fromProtocolTask TaskFile.blocks]. by rewrite Hnone.
  - rewrite fromProtocolTask_metadata_filter, Hnone. cbn [default from_option id].
    by rewrite map_filter_empty.
Qed.

Lemma fromProtocolTask_without_metadata_witness :
  ProtocolTask.metadata sample_protocol_task_bare = None
  ∧ TaskFile.metadata (fromProtocolTask sample_protocol_task_bare) = Some ∅.
Proof.
  split; [reflexivity|].
  exact (proj1 (proj2 (fromProtocolTask_without_metadata
                         sample_protocol_task_bare eq_refl))).
Defined.

(** X9. Converting an external task to the internal form and back keeps its
    identifier, subject, description, status and every metadata entry
    outside the reserved keys; an empty owner and an empty dependency list
    come back absent; the version is reset to 1 and the creation time is
    the time of the conversion. *)
Theorem protocol_task_roundtrip (now : string) (e : ProtocolTask.t) :
  let e' := toProtocolTask now (fromProtocolTask e) in
  ProtocolTask.id e' = ProtocolTask.id e
  ∧ ProtocolTask.subject e' = ProtocolTask.subject e
  ∧ ProtocolTask.description e' = ProtocolTask.description e
  ∧ ProtocolTask.status e' = ProtocolTask.status e
  ∧ ProtocolTask.owner e' =
      match ProtocolTask.owner e with
      | Some s => if String.eqb s "" then None else Some s
      | None => None
      end
  ∧ ProtocolTask.depends_on e' =
      match ProtocolTask.depends_on e with
      | Some (d :: ds) => Some (d :: ds)
      | _ => None
      end
  ∧ ProtocolTask.version e' = 1%float
  ∧ ProtocolTask.created_at e' = now
  ∧ ∃ m : gmap string JsValue,
      ProtocolTask.metadata e' = Some m
      ∧ ∀ k, k ∉ task_reserved_keys →
          m !! k = default ∅ (ProtocolTask.metadata e) !! k.
Proof.
  intros e'. unfold e'.
  repeat (split; [reflexivity|]).
  split.
  { cbn [toProtocolTask fromProtocolTask ProtocolTask.owner TaskFile.owner].
    by destruct (ProtocolTask.owner e). }
  split.
  { cbn [toProtocolTask fromProtocolTask ProtocolTask.depends_on TaskFile.blockedBy].
    by destruct (ProtocolTask.depends_on e) as [[|d ds]|]. }
  repeat (split; [reflexivity|]).
  eexists. split; [reflexivity|].
  intros k Hk. rewrite js_define_lookup_other by done.
  rewrite fromProtocolTask_metadata_filter. cbn [default from_option id].
  by apply filter_unreserved_lookup_other.
Qed.

Lemma protocol_task_roundtrip_witness :
  ProtocolTask.owner sample_protocol_task_bare = Some ""
  ∧ ProtocolTask.depends_on sample_protocol_task_bare = Some []
  ∧ ProtocolTask.owner
      (toProtocolTask "2025-06-01T00:00:00.000Z"
         (fromProtocolTask sample_protocol_task_bare)) = None
  ∧ ProtocolTask.depends_on
      (toProtocolTask "2025-06-01T00:00:00.000Z"
         (fromProtocolTask sample_protocol_task_bare)) = None.
Proof.
  destruct (protocol_task_roundtrip
              "2025-06-01T00:00:00.000Z" sample_protocol_task_bare)
    as (_ & _ & _ & _ & Howner & Hdeps & _).
  split; [reflexivity|]. split; [reflexivity|].
  split; [exact Howner|exact Hdeps].
Defined.

(** ** Further properties: heartbeats *)

Lemma HeartbeatData_ext (a b : HeartbeatData.t) :
  HeartbeatData.workerName a = HeartbeatData.workerName b →
  HeartbeatData.teamName a = HeartbeatData.teamName b →
  HeartbeatData.provider a = HeartbeatData.provider b →
  HeartbeatData.pid a = HeartbeatData.pid b →
  HeartbeatData.lastPollAt a = HeartbeatData.lastPollAt b →
  HeartbeatData.currentTaskId a = HeartbeatData.currentTaskId b →
  HeartbeatData.consecutiveErrors a = HeartbeatData.consecutiveErrors b →
  HeartbeatData.status a = HeartbeatData.status b →
  a = b.
Proof. destruct a, b; cbn; intros; by subst. Qed.

Lemma nullish_taken (v d : JsValue) : is_nullish v = true → v ?? d = d.
Proof. by destruct v. Qed.

Lemma nullish_kept (v d : JsValue) : is_nullish v = false → v ?? d = v.
Proof. by destruct v. Qed.

(** The right operand of [??] shows only under a nullish left operand,
    when the right operand is itself not nullish. *)
Lemma nullish_fixed_iff (v d : JsValue) :
  is_nullish d = false → (v ?? d = v ↔ is_nullish v = false).
Proof.
  intros Hd. split; [|apply nullish_kept].
  destruct v; cbn; try done; intros ->; discriminate Hd.
Qed.

(** The fields of a heartbeat after the round trip. *)
Lemma heartbeat_roundtrip_fields (h : HeartbeatData.t) (w t : string) :
  let back := fromProtocolHeartbeat (toProtocolHeartbeat h) w t in
  HeartbeatData.workerName back = HeartbeatData.workerName h ?? JsString w
  ∧ HeartbeatData.teamName back = HeartbeatData.teamName h ?? JsString t
  ∧ HeartbeatData.provider back = HeartbeatData.provider h ?? JsString "codex"
  ∧ HeartbeatData.consecutiveErrors back
    = HeartbeatData.consecutiveErrors h ?? JsNumber 0%float
  ∧ HeartbeatData.status back = HeartbeatData.status h.
Proof.
  unfold fromProtocolHeartbeat, toProtocolHeartbeat.
  cbn [HeartbeatData.workerName HeartbeatData.teamName HeartbeatData.provider
       HeartbeatData.consecutiveErrors HeartbeatData.status
       ProtocolHeartbeat.metadata ProtocolHeartbeat.status default from_option id].
  repeat (split; [by read_literal|]).
  read_literal. by destruct (HeartbeatData.status h).
Qed.

(** X10. A heartbeat comes back from the round trip exactly as it was,
    whatever the fallback names, if and only if none of its worker name,
    team name, provider and error count is [undefined] or [null]. *)
Theorem heartbeat_roundtrip_identity_iff (h : HeartbeatData.t) (w t : string) :
  fromProtocolHeartbeat (toProtocolHeartbeat h) w t = h
  ↔ is_nullish (HeartbeatData.workerName h) = false
    ∧ is_nullish (HeartbeatData.teamName h) = false
    ∧ is_nullish (HeartbeatData.provider h) = false
    ∧ is_nullish (HeartbeatData.consecutiveErrors h) = false.
Proof.
  destruct (heartbeat_roundtrip_fields h w t) as (Hw & Ht & Hp & Hc & Hs).
  split.
  - intros Hfix. rewrite Hfix in Hw, Ht, Hp, Hc.
    symmetry in Hw, Ht, Hp, Hc.
    apply nullish_fixed_iff in Hw, Ht, Hp, Hc; done.
  - intros (Hw' & Ht' & Hp' & Hc').
    apply HeartbeatData_ext; try done.
    + by rewrite Hw, nullish_kept.
    + by rewrite Ht, nullish_kept.
    + by rewrite Hp, nullish_kept.
    + by rewrite Hc, nullish_kept.
Qed.

Lemma heartbeat_roundtrip_identity_iff_witness :
  fromProtocolHeartbeat (toProtocolHeartbeat (sample_heartbeat "quarantined"))
    "w1" "t1"
  = sample_heartbeat "quarantined".
Proof.
  apply heartbeat_roundtrip_identity_iff. repeat split.
Defined.

(** X11. The external status written by [toProtocolHeartbeat] is never
    [quarantined]; an internal status other than [quarantined] is written
    as it is. *)
Theorem toProtocolHeartbeat_status_external (h : HeartbeatData.t) :
  ProtocolHeartbeat.status (toProtocolHeartbeat h) ≠ JsString "quarantined"
  ∧ (HeartbeatData.status h ≠ JsString "quarantined" →
     ProtocolHeartbeat.status (toProtocolHeartbeat h) = HeartbeatData.status h).
Proof.
  cbn [toProtocolHeartbeat ProtocolHeartbeat.status].
  destruct (HeartbeatData.status h) as [| | | |s| |]; cbn; try done.
  destruct (String.eqb_spec s "quarantined") as [->|Hne].
  - split; [discriminate|done].
  - split; [|done]. intros [= Heq]. by apply Hne.
Qed.

Lemma toProtocolHeartbeat_status_external_witness :
  ProtocolHeartbeat.status (toProtocolHeartbeat (sample_heartbeat "executing"))
  = JsString "executing".
Proof.
  apply (proj2 (toProtocolHeartbeat_status_external (sample_heartbeat "executing"))).
  discriminate.
Defined.

(** X12. [fromProtocolHeartbeat] also takes its defaults when the metadata
    has a reserved key with the value [null] or [undefined]: a nullish
    entry counts as a missing one. *)
Theorem fromProtocolHeartbeat_nullish_defaults
    (hb : ProtocolHeartbeat.t) (w t : string) :
  (∀ k, k ∈ heartbeat_reserved_keys →
     is_nullish (js_get (default ∅ (ProtocolHeartbeat.metadata hb)) k) = true) →
  let h := fromProtocolHeartbeat hb w t in
  HeartbeatData.workerName h = JsString w
  ∧ HeartbeatData.teamName h = JsString t
  ∧ HeartbeatData.provider h = JsString "codex"
  ∧ HeartbeatData.consecutiveErrors h = JsNumber 0%float
  ∧ HeartbeatData.status h = ProtocolHeartbeat.status hb.
Proof.
  intros Hnull h. unfold h, fromProtocolHeartbeat.
  cbn [HeartbeatData.workerName HeartbeatData.teamName HeartbeatData.provider
       HeartbeatData.consecutiveErrors HeartbeatData.status].
  rewrite !nullish_taken; [done|..]; apply Hnull, includes_true; reflexivity.
Qed.

Lemma fromProtocolHeartbeat_nullish_defaults_witness :
  default ∅ (ProtocolHeartbeat.metadata sample_protocol_heartbeat_nulls)
    !! "workerName" = Some JsNull
  ∧ HeartbeatData.workerName
      (fromProtocolHeartbeat sample_protocol_heartbeat_nulls "w1" "t1")
    = JsString "w1"
  ∧ HeartbeatData.status
      (fromProtocolHeartbeat sample_protocol_heartbeat_nulls "w1" "t1")
    = JsString "polling".
Proof.
  assert (Hnull : ∀ k, k ∈ heartbeat_reserved_keys →
    is_nullish
      (js_get (default ∅ (ProtocolHeartbeat.metadata sample_protocol_heartbeat_nulls)) k)
    = true).
  { intros k Hk. unfold heartbeat_reserved_keys in Hk.
    repeat (apply elem_of_cons in Hk as [->|Hk]; [reflexivity|]).
    by apply elem_of_nil in Hk. }
  destruct (fromProtocolHeartbeat_nullish_defaults
              sample_protocol_heartbeat_nulls "w1" "t1" Hnull)
    as (Hw & _ & _ & _ & Hs).
  split; [reflexivity|]. split; [exact Hw|exact Hs].
Defined.

(** X13. When the metadata has a status under [omcStatus] (neither [null]
    nor [undefined]), [fromProtocolHeartbeat] does not look at the external
    status field: changing that field changes nothing in the result. *)
Theorem fromProtocolHeartbeat_ignores_external_status
    (hb : ProtocolHeartbeat.t) (s : JsValue) (w t : string) :
  is_nullish (js_get (default ∅ (ProtocolHeartbeat.metadata hb)) "omcStatus")
  = false →
  fromProtocolHeartbeat (with_status hb s) w t = fromProtocolHeartbeat hb w t
  ∧ HeartbeatData.status (fromProtocolHeartbeat hb w t)
    = js_get (default ∅ (ProtocolHeartbeat.metadata hb)) "omcStatus".
Proof.
  intros Hset.
  assert (Hstatus : ∀ hb', ProtocolHeartbeat.metadata hb' = ProtocolHeartbeat.metadata hb →
            HeartbeatData.status (fromProtocolHeartbeat hb' w t)
            = js_get (default ∅ (ProtocolHeartbeat.metadata hb)) "omcStatus").
  { intros hb' Hsame. cbn [fromProtocolHeartbeat HeartbeatData.status].
    rewrite Hsame. by apply nullish_kept. }
  split; [|by apply Hstatus].
  apply HeartbeatData_ext; try reflexivity.
  by rewrite !Hstatus.
Qed.

Lemma fromProtocolHeartbeat_ignores_external_status_witness :
  HeartbeatData.status
    (fromProtocolHeartbeat
       (with_status (toProtocolHeartbeat (sample_heartbeat "quarantined"))
          (JsString "polling"))
       "w1" "t1")
  = JsString "quarantined".
Proof.
  assert (Hset :
    is_nullish
      (js_get (default ∅ (ProtocolHeartbeat.metadata
                            (toProtocolHeartbeat (sample_heartbeat "quarantined"))))
         "omcStatus") = false) by reflexivity.
  destruct (fromProtocolHeartbeat_ignores_external_status
              (toProtocolHeartbeat (sample_heartbeat "quarantined"))
              (JsString "polling") "w1" "t1" Hset) as [Hsame Hread].
  rewrite Hsame. exact Hread.
Defined.

(** ** Further properties: messages *)

(** X14. No outbound message is given the external type [instruction], so
    a message made by [toProtocolMessage] and read by [fromProtocolMessage]
    always has the internal type [context]; its content is the serialised
    body and its timestamp the one of the outbound message. *)
Theorem fromProtocolMessage_toProtocolMessage
    (JSON_stringify : JsValue → string) (Number_toString : N → number → string)
    (random : number) (msg : OutboxMessage.t) (workerName : string) :
  let sent := toProtocolMessage JSON_stringify Number_toString random msg workerName in
  ProtocolMessage.type sent ≠ "instruction"
  ∧ InboxMessage.type (fromProtocolMessage sent) = "context"
  ∧ InboxMessage.content (fromProtocolMessage sent) = ProtocolMessage.body sent
  ∧ InboxMessage.timestamp (fromProtocolMessage sent) = OutboxMessage.timestamp msg.
Proof.
  intros sent.
  assert (Htype : ProtocolMessage.type sent ≠ "instruction").
  { unfold sent. rewrite toProtocolMessage_type_cases.
    by repeat case_match. }
  split; [exact Htype|]. split; [|done].
  cbn [fromProtocolMessage InboxMessage.type].
  by destruct (String.eqb_spec (ProtocolMessage.type sent) "instruction").
Qed.
